(** * SpectroPro: serial scan controller and spectrum metrics

    A shallow embedding of [serial_handler.py] (class [SerialHandler]) and
    [data_processor.py] (class [DataProcessor]), with the two slots of
    [main_application.py] that join them.

    Conventions of the embedding.
    - Python [int] is [Z]; [bytes] and [str] are [string]s.  The wire
      protocol is ASCII and the embedding covers ASCII lines, on which
      [decode(errors='ignore')] changes nothing; lemmas that quantify over
      received lines say so with [Py.is_ascii].
    - numpy arithmetic is taken exactly: integer arrays are lists of [Z]
      without wrap-around, float results are rationals [Q] kept in lowest
      terms, and the constant [0.1] is the tenth.  The one float that is
      not rational, the standard deviation in the SNR, is kept as the
      variance under a symbolic square root (type [Snr]).
    - [SerialHandler] methods run in a small monad that threads the object,
      may raise, and logs every observable call (port open, write and
      close, timer commands, signal emissions, prints) in program order.
      State changes made before a raise persist, as in Python.  A signal
      emission returns at once: what the connected slot does to the data
      store is applied to the log afterwards by [deliver]. *)

From Stdlib Require Import ZArith QArith Qreduction List String Ascii Bool Lia.
Import ListNotations.

Local Open Scope Z_scope.
Local Open Scope string_scope.

(** ** Python string primitives used by the decoder *)

Module Py.


(** [raw.decode(errors='ignore')] on ASCII bytes, where it changes nothing. *)
Definition decode (raw : string) : string := raw.

(** [str.isspace] on ASCII: TAB LF VT FF CR, FS GS RS US, and space. *)
Definition isspace (c : ascii) : bool :=
  let n := nat_of_ascii c in
  ((9 <=? n) && (n <=? 13) || (28 <=? n) && (n <=? 32))%nat.

(** The whitespace [int()] skips around an ASCII literal: TAB LF VT FF CR
    and space. *)
Definition c_isspace (c : ascii) : bool :=
  let n := nat_of_ascii c in
  ((9 <=? n) && (n <=? 13) || (n =? 32))%nat.

Definition isdigit (c : ascii) : bool :=
  let n := nat_of_ascii c in ((48 <=? n) && (n <=? 57))%nat.

Definition digit_value (c : ascii) : Z := Z.of_nat (nat_of_ascii c) - 48.

Fixpoint lstrip_with (space : ascii -> bool) (s : string) : string :=
  match s with
  | String c r => if space c then lstrip_with space r else s
  | EmptyString => EmptyString
  end.

(** The trailing run of whitespace is dropped: a character is kept when it
    is not whitespace or when something is kept after it. *)
Fixpoint rstrip_with (space : ascii -> bool) (s : string) : string :=
  match s with
  | EmptyString => EmptyString
  | String c r =>
      match rstrip_with space r with
      | EmptyString => if space c then EmptyString else String c EmptyString
      | r' => String c r'
      end
  end.

(** [s.strip()] *)
Definition strip (s : string) : string :=
  rstrip_with isspace (lstrip_with isspace s).

(** [s.startswith(p)] *)
Definition startswith (s p : string) : bool := String.prefix p s.

(** [s.split(sep)] for a one-character separator: never the empty list. *)
Fixpoint split (sep : ascii) (s : string) : list string :=
  match s with
  | EmptyString => [EmptyString]
  | String c r =>
      if Ascii.eqb c sep then EmptyString :: split sep r
      else match split sep r with
           | h :: t => String c h :: t
           | [] => [String c EmptyString]
           end
  end.

(** Decimal digits with single underscores allowed between digits, the body
    of a base-10 integer literal accepted by [int()]. *)
Fixpoint digits (acc : Z) (after_digit : bool) (s : string) : option Z :=
  match s with
  | EmptyString => if after_digit then Some acc else None
  | String c r =>
      if isdigit c then digits (10 * acc + digit_value c) true r
      else if Ascii.eqb c "_" then
             if after_digit then digits acc false r else None
           else None
  end.

(** [int(s)]: surrounding whitespace is skipped, then an optional sign and
    the digits.  [None] stands for [ValueError].  (The interpreter's cap on
    the number of digits of a literal is not modelled.) *)
Definition int (s : string) : option Z :=
  match rstrip_with c_isspace (lstrip_with c_isspace s) with
  | String "+" r => digits 0 false r
  | String "-" r => option_map Z.opp (digits 0 false r)
  | t => digits 0 false t
  end.

(** Every character of [s] satisfies [p]. *)
Fixpoint all_chars (p : ascii -> bool) (s : string) : bool :=
  match s with
  | EmptyString => true
  | String c r => p c && all_chars p r
  end.

Definition digit_char (d : Z) : ascii := ascii_of_nat (48 + Z.to_nat d).

(** The decimal digits of [n >= 0], most significant first; [fuel] bounds
    the number of digits. *)
Fixpoint str_digits (fuel : nat) (n : Z) : string :=
  match fuel with
  | O => EmptyString
  | S f =>
      if (n <? 10)%Z then String (digit_char n) EmptyString
      else str_digits f (n / 10) ++ String (digit_char (n mod 10)) EmptyString
  end.

(** [str(z)] for an [int]: a minus sign when negative, then the digits. *)
Definition str_int (z : Z) : string :=
  if (z <? 0)%Z then String "-" (str_digits (S (Z.to_nat (Z.log2 (- z)))) (- z))
  else str_digits (S (Z.to_nat (Z.log2 z))) z.

End Py.

(** ** Exceptions, the port test double and the call log *)

Inductive exn : Type :=
| ValueError (msg : string)
| SerialException (msg : string)
| AttributeError (msg : string).

(** [str(e)] *)
Definition str (e : exn) : string :=
  match e with
  | ValueError m => m
  | SerialException m => m
  | AttributeError m => m
  end.

Inductive result (A : Type) : Type :=
| Return (a : A)
| Raise (e : exn).
Arguments Return {A} a.
Arguments Raise {A} e.

(** [serial.Serial] as a test double: whether it is open, and the fault (if
    any) that every [write] on it raises. *)
Record Serial : Type := mkSerial {
  is_open : bool;
  write_fault : option exn
}.

Record QTimer : Type := mkQTimer {
  isActive : bool;
  interval : Z
}.

(** Fields of [SerialHandler] set in [__init__]. *)
Record SerialHandler : Type := mkSerialHandler {
  serial_port : option Serial;
  timer : QTimer;
  scan_active : bool
}.

(** Every observable call, recorded in program order. *)
Inductive call : Type :=
| serial_open (port : string) (baud : Z)
| serial_write (data : string)
| serial_close
| timer_start (msec : Z)
| timer_stop
| data_received (x y : Z)
| connection_status_changed (connected : bool) (port baud : string)
| error_occurred (message : string)
| print (text : string).

(** What the port answers during one timer tick, should it be asked:
    the byte count of [in_waiting] and the bytes of [readline()]. *)
Record channel : Type := mkChannel {
  in_waiting : result Z;
  readline : result string
}.

(** ** The method monad: object state, exceptions, call log *)

Definition M (A : Type) : Type :=
  SerialHandler -> result A * SerialHandler * list call.

Definition ret {A} (a : A) : M A := fun self => (Return a, self, []).

Definition raise {A} (e : exn) : M A := fun self => (Raise e, self, []).

Definition bind {A B} (m : M A) (k : A -> M B) : M B :=
  fun self =>
    match m self with
    | (Return a, self1, log1) =>
        match k a self1 with
        | (r, self2, log2) => (r, self2, (log1 ++ log2)%list)
        end
    | (Raise e, self1, log1) => (Raise e, self1, log1)
    end.

(** [try: body  except Exception as e: handler e] *)
Definition try_except {A} (body : M A) (handler : exn -> M A) : M A :=
  fun self =>
    match body self with
    | (Return a, self1, log1) => (Return a, self1, log1)
    | (Raise e, self1, log1) =>
        match handler e self1 with
        | (r, self2, log2) => (r, self2, (log1 ++ log2)%list)
        end
    end.

Definition get : M SerialHandler := fun self => (Return self, self, []).

Definition put (self' : SerialHandler) : M unit :=
  fun _ => (Return tt, self', []).

Definition record (c : call) : M unit := fun self => (Return tt, self, [c]).

Definition lift {A} (r : result A) : M A := fun self => (r, self, []).

Declare Scope method_scope.
Delimit Scope method_scope with method.
Notation "x <- m ;; k" := (bind m (fun x => k))
  (at level 61, m at next level, right associativity) : method_scope.
Notation "m ;; k" := (bind m (fun _ => k))
  (at level 61, right associativity) : method_scope.
Local Open Scope method_scope.

Definition state_of {A} (r : result A * SerialHandler * list call) : SerialHandler :=
  snd (fst r).
Definition log_of {A} (r : result A * SerialHandler * list call) : list call :=
  snd r.
Definition value_of {A} (r : result A * SerialHandler * list call) : result A :=
  fst (fst r).

(** ** [SerialHandler] *)

(** The line feed that ends a frame. *)
Definition LF : string := String "010" "".

Definition START_FRAME : string := "d#101#1002" ++ LF.
Definition STOP_FRAME : string := "STOP" ++ LF.

(** [__init__] *)
Definition init : SerialHandler :=
  {| serial_port := None;
     timer := {| isActive := false; interval := 0 |};
     scan_active := false |}.

Definition set_serial_port (p : option Serial) : M unit :=
  self <- get ;;
  put {| serial_port := p; timer := timer self; scan_active := scan_active self |}.

Definition set_scan_active (b : bool) : M unit :=
  self <- get ;;
  put {| serial_port := serial_port self; timer := timer self; scan_active := b |}.

(** [self.timer.start(msec)] *)
Definition timer_start_ (msec : Z) : M unit :=
  self <- get ;;
  put {| serial_port := serial_port self;
         timer := {| isActive := true; interval := msec |};
         scan_active := scan_active self |} ;;
  record (timer_start msec).

(** [self.timer.stop()] *)
Definition timer_stop_ : M unit :=
  self <- get ;;
  put {| serial_port := serial_port self;
         timer := {| isActive := false; interval := interval (timer self) |};
         scan_active := scan_active self |} ;;
  record timer_stop.

(** [self.serial_port.write(data)]: the call is recorded, then it raises the
    port's fault if it has one; a closed port refuses the write. *)
Definition write (data : string) : M unit :=
  self <- get ;;
  match serial_port self with
  | None => raise (AttributeError "'NoneType' object has no attribute 'write'")
  | Some p =>
      record (serial_write data) ;;
      if is_open p then
        match write_fault p with
        | Some e => raise e
        | None => ret tt
        end
      else raise (SerialException "Attempting to use a port that is not open")
  end.

(** [self.serial_port.close()] *)
Definition close : M unit :=
  self <- get ;;
  match serial_port self with
  | None => raise (AttributeError "'NoneType' object has no attribute 'close'")
  | Some p =>
      record serial_close ;;
      set_serial_port (Some {| is_open := false; write_fault := write_fault p |})
  end.

(** [self.serial_port and self.serial_port.is_open], as a truth value. *)
Definition connected (self : SerialHandler) : bool :=
  match serial_port self with
  | Some p => is_open p
  | None => false
  end.

Definition is_connected : M bool := self <- get ;; ret (connected self).

Definition stop_scan : M unit :=
  self <- get ;;
  if negb (scan_active self) then ret tt
  else
    try_except
      (c <- is_connected ;;
       (if c then write STOP_FRAME else ret tt) ;;
       timer_stop_ ;;
       set_scan_active false)
      (fun e => record (error_occurred ("Error stopping scan: " ++ str e))).

Definition disconnect : M unit :=
  self <- get ;;
  if connected self then
    stop_scan ;;
    close ;;
    record (connection_status_changed false "" "")
  else ret tt.

(** [connect_to_port(port, baud_rate)]; [driver] is what the constructor
    [serial.Serial(port, int(baud_rate), timeout=1)] does on this machine.
    Only [serial.SerialException] is caught. *)
Definition connect_to_port (port baud_rate : string) (driver : result Serial) : M bool :=
  fun self0 =>
    match
      (self <- get ;;
       (if connected self then disconnect else ret tt) ;;
       baud <- match Py.int baud_rate with
               | Some b => ret b
               | None => raise (ValueError ("invalid literal for int() with base 10: '"
                                            ++ baud_rate ++ "'"))
               end ;;
       record (serial_open port baud) ;;
       p <- lift driver ;;
       set_serial_port (Some p) ;;
       record (connection_status_changed true port baud_rate) ;;
       ret true) self0
    with
    | (Raise (SerialException m), self1, log1) =>
        match (set_serial_port None ;;
               record (error_occurred m) ;;
               record (connection_status_changed false "" "") ;;
               ret false) self1
        with
        | (r, self2, log2) => (r, self2, (log1 ++ log2)%list)
        end
    | other => other
    end.

Definition start_scan : M bool :=
  c <- is_connected ;;
  if negb c then
    record (error_occurred "No serial connection available") ;;
    ret false
  else
    self <- get ;;
    if scan_active self then ret true
    else
      try_except
        (write START_FRAME ;;
         set_scan_active true ;;
         timer_start_ 100 ;;
         ret true)
        (fun e =>
           record (error_occurred ("Failed to start scan: " ++ str e)) ;;
           ret false).

(** [int(s)] inside a method: [ValueError] on a string that is no integer.
    The message quotes the literal as it stands ([repr]'s escapes are not
    modelled). *)
Definition int_ (s : string) : M Z :=
  match Py.int s with
  | Some z => ret z
  | None => raise (ValueError ("invalid literal for int() with base 10: '" ++ s ++ "'"))
  end.

(** The timer slot.  [rx] is the port's behaviour during this tick. *)
Definition _read_serial_data (rx : channel) : M unit :=
  self <- get ;;
  if negb (connected self) || negb (scan_active self) then timer_stop_
  else
    try_except
      (n <- lift (in_waiting rx) ;;
       if (n =? 0)%Z then ret tt
       else
         raw <- lift (readline rx) ;;
         let line := Py.strip (Py.decode raw) in
         record (print ("Received: " ++ line)) ;;
         if Py.startswith line "d#" then
           let parts := Py.split "#" line in
           if (List.length parts =? 3)%nat then
             x <- int_ (nth 1 parts "") ;;
             y <- int_ (nth 2 parts "") ;;
             record (data_received x y)
           else ret tt
         else ret tt)
      (fun e =>
         record (error_occurred ("Error reading serial data: " ++ str e)) ;;
         stop_scan).

(** The event loop: the timer calls its slot once per interval for as long
    as it is active; [ticks] is what the port does at each interval. *)
Fixpoint poll (ticks : list channel) : M unit :=
  match ticks with
  | [] => ret tt
  | rx :: rest =>
      self <- get ;;
      if isActive (timer self) then _read_serial_data rx ;; poll rest
      else ret tt
  end.

(** A tick on which [readline] hands back [raw]. *)
Definition received (raw : string) : channel :=
  {| in_waiting := Return (Z.of_nat (String.length raw)); readline := Return raw |}.

(** The samples a call log carries, in order. *)
Fixpoint samples (log : list call) : list (Z * Z) :=
  match log with
  | [] => []
  | data_received x y :: rest => (x, y) :: samples rest
  | _ :: rest => samples rest
  end.

(** ** numpy primitives used by the metrics, in exact arithmetic *)

Local Open Scope Q_scope.

Definition Qltb (a b : Q) : bool := negb (Qle_bool b a).

Module np.

Definition max (a : list Z) : Z :=
  match a with
  | [] => 0%Z
  | x :: r => fold_left Z.max r x
  end.

Fixpoint argmax_from (best : Z) (best_i i : nat) (a : list Z) : nat :=
  match a with
  | [] => best_i
  | x :: r =>
      if (best <? x)%Z then argmax_from x i (S i) r
      else argmax_from best best_i (S i) r
  end.

(** Index of the first occurrence of the maximum. *)
Definition argmax (a : list Z) : nat :=
  match a with
  | [] => 0%nat
  | x :: r => argmax_from x 0 1 r
  end.

(** [argmax] of a boolean array ([False < True]). *)
Definition argmax_bool (a : list bool) : nat := argmax (map Z.b2z a).

Definition sum (a : list Z) : Z := fold_right Z.add 0%Z a.

Definition sumQ (a : list Q) : Q := fold_right Qplus 0 a.

Definition any (a : list bool) : bool := existsb (fun b => b) a.

(** Elementwise binary operation on arrays of equal length. *)
Fixpoint map2 {A B C} (f : A -> B -> C) (a : list A) (b : list B) : list C :=
  match a, b with
  | x :: a', y :: b' => f x y :: map2 f a' b'
  | _, _ => []
  end.

(** [a[mask]] *)
Fixpoint select {A} (a : list A) (mask : list bool) : list A :=
  match a, mask with
  | x :: a', m :: mask' => if m then x :: select a' mask' else select a' mask'
  | _, _ => []
  end.

(** [np.diff(a)]: [a[1:] - a[:-1]]. *)
Definition diff (a : list Z) : list Z := map2 Z.sub (tl a) a.

(** [np.trapezoid(y, x)]: [(d * (y[1:] + y[:-1]) / 2.0).sum()] with
    [d = diff(x)]. *)
Definition trapezoid (y x : list Z) : Q :=
  let d := diff x in
  sumQ (map (fun p => inject_Z p / 2)
            (map2 Z.mul d (map2 Z.add (tl y) (removelast y)))).

Definition mean (a : list Z) : Q :=
  inject_Z (sum a) / inject_Z (Z.of_nat (List.length a)).

(** The square of [np.std(a)]: the mean squared deviation from the mean. *)
Definition var (a : list Z) : Q :=
  let m := mean a in
  sumQ (map (fun x => (inject_Z x - m) * (inject_Z x - m)) a)
  / inject_Z (Z.of_nat (List.length a)).

End np.

(** ** [DataProcessor] *)

(** The SNR value: literally zero, or [signal / sqrt variance]. *)
Inductive Snr : Type :=
| Snr_zero
| Snr_over_std (signal : Q) (variance : Q).

Record Metrics : Type := mkMetrics {
  peak_value : Q;
  centroid : Q;
  max_intensity : Q;
  fwhm : Q;
  snr : Snr;
  auc : Q
}.

Record DataProcessor : Type := mkDataProcessor {
  data_points : list (Z * Z);
  metrics : Metrics
}.

(** [float(v)]: the value, in lowest terms. *)
Definition float (v : Q) : Q := Qred v.

Definition float_snr (v : Snr) : Snr :=
  match v with
  | Snr_zero => Snr_zero
  | Snr_over_std s v => Snr_over_std (Qred s) (Qred v)
  end.

Definition zero_metrics : Metrics :=
  {| peak_value := 0; centroid := 0; max_intensity := 0;
     fwhm := 0; snr := Snr_zero; auc := 0 |}.

Definition reset_metrics (self : DataProcessor) : DataProcessor :=
  {| data_points := data_points self; metrics := zero_metrics |}.

(** The body of [calculate_metrics] past the emptiness test. *)
Definition metrics_of (points : list (Z * Z)) : Metrics :=
  let wavelengths := map fst points in
  let intensities := map snd points in
  let max_i := np.max intensities in
  let peak_idx := np.argmax intensities in
  let peak := nth peak_idx wavelengths 0%Z in
  let centroid_ :=
    if (0 <? np.sum intensities)%Z
    then inject_Z (np.sum (np.map2 Z.mul wavelengths intensities))
         / inject_Z (np.sum intensities)
    else 0 in
  let half_max := inject_Z max_i / 2 in
  let above_half := map (fun i => Qltb half_max (inject_Z i)) intensities in
  let fwhm_ :=
    if np.any above_half then
      let left_idx := Z.of_nat (np.argmax_bool above_half) in
      let right_idx :=
        (Z.of_nat (List.length above_half)
         - Z.of_nat (np.argmax_bool (rev above_half)) - 1)%Z in
      if (left_idx <? right_idx)%Z
      then inject_Z (nth (Z.to_nat right_idx) wavelengths 0%Z
                     - nth (Z.to_nat left_idx) wavelengths 0%Z)
      else 0
    else 0 in
  let auc_ :=
    if (1 <? List.length wavelengths)%nat
    then np.trapezoid intensities wavelengths
    else 0 in
  let noise_region :=
    map (fun i => Qltb (inject_Z i) (inject_Z max_i * (1 # 10))) intensities in
  let noise := np.select intensities noise_region in
  let snr_ :=
    if np.any noise_region && (1 <? List.length noise)%nat then
      let noise_var := np.var noise in
      if Qltb 0 noise_var then Snr_over_std (inject_Z max_i) noise_var
      else Snr_zero
    else Snr_zero in
  {| peak_value := float (inject_Z peak);
     centroid := float centroid_;
     max_intensity := float (inject_Z max_i);
     fwhm := float fwhm_;
     snr := float_snr snr_;
     auc := float auc_ |}.

Definition calculate_metrics (self : DataProcessor) : DataProcessor :=
  match data_points self with
  | [] => reset_metrics self
  | _ :: _ =>
      {| data_points := data_points self;
         metrics := metrics_of (data_points self) |}
  end.

Definition new_processor : DataProcessor :=
  {| data_points := []; metrics := zero_metrics |}.

Definition add_data_point (x y : Z) (self : DataProcessor) : DataProcessor :=
  calculate_metrics
    {| data_points := (data_points self ++ [(x, y)])%list;
       metrics := metrics self |}.

Definition clear_data (self : DataProcessor) : DataProcessor :=
  reset_metrics {| data_points := []; metrics := metrics self |}.

(** ** The slots of [MainApp] that reach the data *)

(** [on_data_received] stores the point; [on_error_occurred] and
    [on_connection_status_changed] only touch widgets. *)
Definition slot (c : call) (store : DataProcessor) : DataProcessor :=
  match c with
  | data_received x y => add_data_point x y store
  | _ => store
  end.

(** The store after every emission of a call log has reached its slot. *)
Definition deliver (log : list call) (store : DataProcessor) : DataProcessor :=
  fold_left (fun st c => slot c st) log store.

(** ** Reference definitions the claims are compared against *)

(** The decoding rule for a complete line: prefix ["d#"], exactly three
    ["#"]-separated tokens, the second and third integers. *)
Definition well_formed (line : string) : option (Z * Z) :=
  if Py.startswith line "d#" then
    match Py.split "#" line with
    | [_; a; b] =>
        match Py.int a, Py.int b with
        | Some x, Some y => Some (x, y)
        | _, _ => None
        end
    | _ => None
    end
  else None.


(** The samples of the well-formed lines among [lines], in order. *)
Definition decoded (lines : list string) : list (Z * Z) :=
  flat_map (fun raw => match well_formed (Py.strip raw) with
                       | Some p => [p]
                       | None => []
                       end) lines.


(** Wavelengths never decrease along the list. *)
Fixpoint monotone (w : list Z) : Prop :=
  match w with
  | a :: ((b :: _) as rest) => (a <= b)%Z /\ monotone rest
  | _ => True
  end.

(** ** Call-order vocabulary *)

(** Some call satisfying [p] occurs strictly before some call satisfying [q]. *)
Fixpoint occurs_before (p q : call -> bool) (log : list call) : bool :=
  match log with
  | [] => false
  | c :: rest => (p c && existsb q rest) || occurs_before p q rest
  end.

(** The calls by which [stop_scan] stops a scan. *)
Definition scan_stopping (c : call) : bool :=
  match c with
  | serial_write d => String.eqb d STOP_FRAME
  | timer_stop => true
  | _ => false
  end.

Definition is_error (c : call) : bool :=
  match c with
  | error_occurred _ => true
  | _ => false
  end.

Definition is_close (c : call) : bool :=
  match c with
  | serial_close => true
  | _ => false
  end.

(** A tick on which the port cannot be read. *)
Definition read_fails (rx : channel) (e : exn) : Prop :=
  in_waiting rx = Raise e \/
  exists n, in_waiting rx = Return n /\ n <> 0%Z /\ readline rx = Raise e.

(** A handler with an open port and a running scan. *)
Definition scanning (fault : option exn) : SerialHandler :=
  {| serial_port := Some {| is_open := true; write_fault := fault |};
     timer := {| isActive := true; interval := 100 |};
     scan_active := true |}.

(** Disconnecting with a faulty port closes it while the scan flag is still
    set: a scan that is active on a port that is no longer open. *)
Definition orphaned_scan : SerialHandler :=
  state_of (disconnect (scanning (Some (SerialException "write failed")))).

(** A tick on which [readline] raises although bytes are waiting. *)
Definition device_lost : channel :=
  {| in_waiting := Return 4%Z; readline := Raise (SerialException "device lost") |}.

(** ** The handler driven by its callers and by the port *)

(** What can happen to a [SerialHandler]: the calls [MainApp] makes on it,
    a timer interval elapsing, and the open port starting or ceasing to fail
    its writes. *)
Inductive command : Type :=
| Connect (port baud_rate : string) (driver : result Serial)
| Disconnect
| StartScan
| StopScan
| Tick (rx : channel)
| PortFault (fault : option exn).

Definition run_command (c : command) : M unit :=
  match c with
  | Connect port baud_rate driver =>
      _ <- connect_to_port port baud_rate driver ;; ret tt
  | Disconnect => disconnect
  | StartScan => _ <- start_scan ;; ret tt
  | StopScan => stop_scan
  | Tick rx =>
      self <- get ;;
      if isActive (timer self) then _read_serial_data rx else ret tt
  | PortFault fault =>
      self <- get ;;
      match serial_port self with
      | Some p => set_serial_port
                    (Some {| is_open := is_open p; write_fault := fault |})
      | None => ret tt
      end
  end.

(** Commands in sequence; an exception that escapes a method ends the run. *)
Fixpoint run (cs : list command) : M unit :=
  match cs with
  | [] => ret tt
  | c :: rest => run_command c ;; run rest
  end.

(** A [Connect] whose baud rate text is an integer and whose driver fails,
    if at all, with a [SerialException]. *)
Definition sound_command (c : command) : Prop :=
  match c with
  | Connect _ baud_rate driver =>
      Py.int baud_rate <> None
      /\ forall e, driver = Raise e -> exists m, e = SerialException m
  | _ => True
  end.

(** A call that touches the port. *)
Definition port_traffic (c : call) : bool :=
  match c with
  | serial_write _ => true
  | serial_close => true
  | _ => false
  end.

Definition is_start_frame (c : call) : bool :=
  match c with
  | serial_write d => String.eqb d START_FRAME
  | _ => false
  end.

Definition is_open_call (c : call) : bool :=
  match c with
  | serial_open _ _ => true
  | _ => false
  end.

(** ** [DataProcessor.export_to_csv] *)

Definition CRLF : string := String "013" LF.

(** [csv.writer(f).writerow(fields)] in the default dialect, for fields that
    need no quoting: the fields joined by commas, then CR LF. *)
Definition csv_row (fields : list string) : string :=
  String.concat "," fields ++ CRLF.

(** The calls [export_to_csv] makes on the dialogs and on the file. *)
Inductive export_call : Type :=
| QMessageBox_warning (title text : string)
| QMessageBox_information (title text : string)
| QMessageBox_critical (title text : string)
| getSaveFileName (caption filter : string)
| file_open (name : string)
| file_write (text : string).

(** [export_to_csv(parent_widget)]: [parent_widget] tells whether a widget
    was passed, [filename] is what the save dialog returns (empty when
    cancelled) and [open_error] the message of the exception [open] raises,
    if it does; writes to an opened file succeed. *)
Definition export_to_csv (parent_widget : bool) (filename : string)
    (open_error : option string) (self : DataProcessor)
  : bool * list export_call :=
  match data_points self with
  | [] =>
      (false,
       if parent_widget
       then [QMessageBox_warning "No Data" "No data to save."] else [])
  | _ :: _ =>
      let asked := getSaveFileName "Save Data" "CSV Files (*.csv)" in
      match filename with
      | EmptyString => (false, [asked])
      | _ =>
          match open_error with
          | Some e =>
              (false,
               asked :: file_open filename
               :: (if parent_widget
                   then [QMessageBox_critical "Error"
                           ("Failed to save file:" ++ LF ++ e)]
                   else []))
          | None =>
              (true,
               (asked :: file_open filename
                :: file_write (csv_row ["Wavelength"; "Intensity"])
                :: map (fun point =>
                          file_write (csv_row [Py.str_int (fst point);
                                               Py.str_int (snd point)]))
                       (data_points self)
                ++ (if parent_widget
                    then [QMessageBox_information "Success"
                            ("Data saved to " ++ filename)]
                    else []))%list)
          end
      end
  end.

(** The texts written to the file, in order. *)
Fixpoint written (log : list export_call) : list string :=
  match log with
  | [] => []
  | file_write t :: rest => t :: written rest
  | _ :: rest => written rest
  end.

(** Reading a data row back: strip the line end, split on the comma, read
    both fields with [int]. *)
Definition read_row (row : string) : option (Z * Z) :=
  match Py.split "," (Py.strip row) with
  | [a; b] =>
      match Py.int a, Py.int b with
      | Some x, Some y => Some (x, y)
      | _, _ => None
      end
  | _ => None
  end.

(** A port as the driver hands it over: open, with working writes. *)
Definition healthy_port : Serial := {| is_open := true; write_fault := None |}.

(** A session in which the cable is pulled during a scan, the user
    disconnects, one more timer interval elapses, and the user reconnects. *)
Definition unplugged_session : list command :=
  [Connect "COM3" "9600" (Return healthy_port);
   StartScan;
   PortFault (Some (SerialException "device unplugged"));
   Disconnect;
   Tick (received "");
   Connect "COM3" "9600" (Return healthy_port)].

Definition is_timer_start (c : call) : bool :=
  match c with
  | timer_start _ => true
  | _ => false
  end.

(** A call the handler may make on the port's output: anything but a write,
    or a write of one of the two command frames. *)
Definition only_frames (c : call) : bool :=
  match c with
  | serial_write d => String.eqb d START_FRAME || String.eqb d STOP_FRAME
  | _ => true
  end.

(** The characters of a printed integer: a digit or the minus sign. *)
Definition plain (c : ascii) : bool := Py.isdigit c || Ascii.eqb c "-".

(** ** Store consistency *)

(** The metrics are the ones [calculate_metrics] derives from the points. *)
Definition consistent (self : DataProcessor) : Prop :=
  metrics self = metrics (calculate_metrics self).

(** * Properties *)

(** ** Decoder and string primitives on the protocol's lines *)

Example strip_line : Py.strip (" d#500#800" ++ String "013" LF) = "d#500#800".
Proof. reflexivity. Qed.

Example split_three : Py.split "#" "d#500#800" = ["d"; "500"; "800"].
Proof. reflexivity. Qed.

Example split_trailing : Py.split "#" "d#500#" = ["d"; "500"; ""].
Proof. reflexivity. Qed.

Example int_plain : Py.int "500" = Some 500%Z.
Proof. reflexivity. Qed.

Example int_signed : Py.int " -1_000 " = Some (-1000)%Z.
Proof. reflexivity. Qed.

Example int_empty : Py.int "" = None.
Proof. reflexivity. Qed.

Example int_letters : Py.int "abc" = None.
Proof. reflexivity. Qed.

Lemma split_nonempty sep s : Py.split sep s <> [].
Proof.
  destruct s as [|c r]; simpl; [discriminate|].
  destruct (Ascii.eqb c sep); [discriminate|].
  destruct (Py.split sep r); discriminate.
Qed.

(** ** State shapes *)

Lemma connected_inv self :
  connected self = true ->
  exists f, serial_port self = Some {| is_open := true; write_fault := f |}.
Proof.
  unfold connected. destruct (serial_port self) as [[o f]|]; simpl; intro H.
  - subst o. now exists f.
  - discriminate.
Qed.

Lemma not_connected_inv self :
  connected self = false ->
  serial_port self = None \/
  exists f, serial_port self = Some {| is_open := false; write_fault := f |}.
Proof.
  unfold connected. destruct (serial_port self) as [[o f]|]; simpl; intro H.
  - subst o. right. now exists f.
  - now left.
Qed.

Ltac open_handler self :=
  let p := fresh "port" in
  let t := fresh "tm" in
  let a := fresh "act" in
  let o := fresh "o" in
  let f := fresh "fault" in
  destruct self as [[[o f]|] [a t] sa]; cbn in *; subst; try discriminate.

(** ** [stop_scan] *)

(** With a healthy port the stop frame is written, the timer stopped and the
    scan flag cleared. *)
Lemma stop_scan_healthy self :
  connected self = true -> scan_active self = true ->
  (forall p, serial_port self = Some p -> write_fault p = None) ->
  stop_scan self =
    (Return tt,
     {| serial_port := serial_port self;
        timer := {| isActive := false; interval := interval (timer self) |};
        scan_active := false |},
     [serial_write STOP_FRAME; timer_stop]).
Proof.
  intros Hc Hs Hw. open_handler self.
  specialize (Hw _ eq_refl). cbn in Hw. subst. reflexivity.
Qed.

(** With a faulty port the handler entered after the failed write only
    reports: the timer keeps running and the flag stays set. *)
Lemma stop_scan_faulty self e :
  scan_active self = true ->
  serial_port self = Some {| is_open := true; write_fault := Some e |} ->
  stop_scan self =
    (Return tt, self,
     [serial_write STOP_FRAME; error_occurred ("Error stopping scan: " ++ str e)]).
Proof.
  intros Hs Hp. open_handler self. inversion Hp; subst. reflexivity.
Qed.

(** [stop_scan] never raises, never closes the port, and when the port is
    open its log starts with the write of the stop frame. *)
Lemma stop_scan_shape self :
  connected self = true -> scan_active self = true ->
  exists self' rest,
    stop_scan self = (Return tt, self', serial_write STOP_FRAME :: rest)
    /\ serial_port self' = serial_port self
    /\ existsb is_close rest = false.
Proof.
  intros Hc Hs. open_handler self. destruct fault as [e|].
  - eexists _, _. split; [reflexivity|]. split; reflexivity.
  - eexists _, _. split; [reflexivity|]. split; reflexivity.
Qed.

(** C2, evaluated on the code: with a scan active on an open port whose
    write raises, [stop_scan] records the write of the stop frame and the
    error report and nothing else; the timer is still active and
    [scan_active] is still true afterwards.  The two statements that would
    halt polling sit after the write inside the [try] and are skipped. *)
Theorem stop_scan_write_failure_keeps_scanning :
  let self := scanning (Some (SerialException "write failed")) in
  stop_scan self =
    (Return tt, self,
     [serial_write STOP_FRAME; error_occurred "Error stopping scan: write failed"])
  /\ scan_active (state_of (stop_scan self)) = true
  /\ isActive (timer (state_of (stop_scan self))) = true.
Proof.
  cbv zeta. rewrite (stop_scan_faulty _ (SerialException "write failed"));
    repeat split; reflexivity.
Qed.

(** C10: when a scan is active but the port is not open (absent or closed),
    [stop_scan] stops the timer and clears [scan_active]; it makes no write
    and emits no error: the only recorded call is the timer stop. *)
Theorem stop_scan_closed_port_skips_frame self :
  scan_active self = true -> connected self = false ->
  stop_scan self =
    (Return tt,
     {| serial_port := serial_port self;
        timer := {| isActive := false; interval := interval (timer self) |};
        scan_active := false |},
     [timer_stop]).
Proof.
  intros Hs Hc. open_handler self; reflexivity.
Qed.

Lemma stop_scan_closed_port_skips_frame_witness :
  scan_active orphaned_scan = true /\ connected orphaned_scan = false /\
  stop_scan orphaned_scan =
    (Return tt,
     {| serial_port :=
          Some {| is_open := false;
                  write_fault := Some (SerialException "write failed") |};
        timer := {| isActive := false; interval := 100 |};
        scan_active := false |},
     [timer_stop]).
Proof.
  split; [reflexivity|]. split; [reflexivity|].
  apply (stop_scan_closed_port_skips_frame orphaned_scan); reflexivity.
Defined.

(** ** [disconnect] *)

(** C4: with the port open and a scan active, [disconnect] first calls
    [stop_scan], whose first recorded call is the write of the stop frame,
    and only then closes the port: the log is the stop frame write, the rest
    of [stop_scan] (which contains no close), the close, and the status
    signal.  The port is closed afterwards. *)
Theorem disconnect_stops_before_close self :
  connected self = true -> scan_active self = true ->
  exists rest,
    log_of (disconnect self) =
      (serial_write STOP_FRAME :: rest
       ++ [serial_close; connection_status_changed false "" ""])%list
    /\ log_of (stop_scan self) = serial_write STOP_FRAME :: rest
    /\ existsb is_close rest = false
    /\ occurs_before scan_stopping is_close (log_of (disconnect self)) = true
    /\ occurs_before is_close scan_stopping (log_of (disconnect self)) = false
    /\ connected (state_of (disconnect self)) = false.
Proof.
  intros Hc Hs. open_handler self. destruct fault as [e|].
  - eexists. repeat split; reflexivity.
  - eexists. repeat split; reflexivity.
Qed.

Lemma disconnect_stops_before_close_witness :
  connected (scanning None) = true /\ scan_active (scanning None) = true /\
  exists rest,
    log_of (disconnect (scanning None)) =
      (serial_write STOP_FRAME :: rest
       ++ [serial_close; connection_status_changed false "" ""])%list
    /\ log_of (stop_scan (scanning None)) = serial_write STOP_FRAME :: rest
    /\ existsb is_close rest = false
    /\ occurs_before scan_stopping is_close (log_of (disconnect (scanning None))) = true
    /\ occurs_before is_close scan_stopping (log_of (disconnect (scanning None))) = false
    /\ connected (state_of (disconnect (scanning None))) = false.
Proof.
  split; [reflexivity|]. split; [reflexivity|].
  apply (disconnect_stops_before_close (scanning None)); reflexivity.
Defined.

(** ** [start_scan] *)

(** C8: when the port is not connected, [start_scan] returns [False] after
    emitting the error "No serial connection available"; nothing else is
    recorded (no write of the start frame, no timer start), the handler is
    unchanged, and the data store is the same after the emission has been
    delivered. *)
Theorem start_scan_not_connected self store :
  connected self = false ->
  start_scan self =
    (Return false, self, [error_occurred "No serial connection available"])
  /\ deliver (log_of (start_scan self)) store = store.
Proof.
  intros Hc. open_handler self; split; reflexivity.
Qed.

Lemma start_scan_not_connected_witness :
  connected init = false /\
  start_scan init =
    (Return false, init, [error_occurred "No serial connection available"])
  /\ deliver (log_of (start_scan init)) new_processor = new_processor.
Proof.
  split; [reflexivity|].
  apply (start_scan_not_connected init new_processor); reflexivity.
Defined.

(** ** The timer slot *)

(** C3 as the code has it: on a tick of an active scan whose read raises
    [e], the slot first emits the read error and then runs [stop_scan]; the
    log is the error event followed by the log of [stop_scan]. *)
Theorem read_failure_reports_then_stops self rx e :
  connected self = true -> scan_active self = true -> read_fails rx e ->
  _read_serial_data rx self =
    (value_of (stop_scan self), state_of (stop_scan self),
     error_occurred ("Error reading serial data: " ++ str e)
       :: log_of (stop_scan self)).
Proof.
  intros Hc Hs Hr. open_handler self. destruct rx as [w r]; cbn in Hr.
  destruct Hr as [Hw | [n [Hw [Hn Hr]]]]; cbn in *; subst.
  - destruct fault; reflexivity.
  - unfold _read_serial_data, bind, get, try_except, lift; cbn.
    destruct (Z.eqb_spec n 0) as [|_]; [contradiction|].
    destruct fault; reflexivity.
Qed.

Lemma read_failure_reports_then_stops_witness :
  connected (scanning None) = true /\ scan_active (scanning None) = true /\
  read_fails device_lost (SerialException "device lost") /\
  _read_serial_data device_lost (scanning None) =
    (Return tt,
     {| serial_port := Some {| is_open := true; write_fault := None |};
        timer := {| isActive := false; interval := 100 |};
        scan_active := false |},
     [error_occurred "Error reading serial data: device lost";
      serial_write STOP_FRAME; timer_stop]).
Proof.
  assert (Hr : read_fails device_lost (SerialException "device lost")).
  { right. exists 4%Z. split; [reflexivity|]. split; [discriminate|reflexivity]. }
  split; [reflexivity|]. split; [reflexivity|]. split; [exact Hr|].
  exact (read_failure_reports_then_stops (scanning None) device_lost
           (SerialException "device lost") eq_refl eq_refl Hr).
Defined.

(** C3 as claimed fails: on that tick the error event is the first call of
    the log and both scan-stopping calls come after it, so no scan-stopping
    call precedes the error event. *)
Lemma read_failure_stop_not_before_report :
  log_of (_read_serial_data device_lost (scanning None)) =
    [error_occurred "Error reading serial data: device lost";
     serial_write STOP_FRAME; timer_stop]
  /\ occurs_before scan_stopping is_error
       (log_of (_read_serial_data device_lost (scanning None))) = false
  /\ occurs_before is_error scan_stopping
       (log_of (_read_serial_data device_lost (scanning None))) = true.
Proof. repeat split; reflexivity. Qed.







(** C1, evaluated on the code: the line [d#abc#5] is malformed (its second
    token is no integer) and [d#500#800] is well-formed; polled in that
    order during an active scan, the first line raises in [int], is reported
    as a read error and stops the scan, so the second line is never read and
    no sample is produced. *)
Theorem non_integer_token_stops_scan :
  let run := poll [received ("d#abc#5" ++ LF); received ("d#500#800" ++ LF)]
                  (scanning None) in
  well_formed "d#abc#5" = None
  /\ well_formed "d#500#800" = Some (500, 800)%Z
  /\ log_of run =
       [print "Received: d#abc#5";
        error_occurred
          "Error reading serial data: invalid literal for int() with base 10: 'abc'";
        serial_write STOP_FRAME; timer_stop]
  /\ scan_active (state_of run) = false
  /\ isActive (timer (state_of run)) = false
  /\ samples (log_of run) = []
  /\ decoded ["d#abc#5" ++ LF; "d#500#800" ++ LF] = [(500, 800)%Z].
Proof. cbv zeta. repeat split; reflexivity. Qed.

(** C5 as claimed fails: when the line arrives as [d#500#] on one read and
    [800] with the line feed on the next, the polled log carries no sample,
    and the store stays empty. *)
Lemma split_line_not_reassembled :
  samples (log_of (poll [received "d#500#"; received ("800" ++ LF)] (scanning None)))
    <> [(500, 800)%Z]
  /\ data_points
       (deliver (log_of (poll [received "d#500#"; received ("800" ++ LF)] (scanning None)))
                new_processor) = [].
Proof. split; [discriminate|reflexivity]. Qed.

(** C5 as the code has it: the slot keeps nothing between reads.  A read
    that returns the whole line [d#500#800] with its line feed yields exactly
    the sample (500, 800) and leaves the handler unchanged; the same bytes
    returned by two reads, [d#500#] then [800] with the line feed, yield no
    sample. *)
Theorem whole_line_decodes_split_line_does_not self :
  connected self = true -> scan_active self = true ->
  _read_serial_data (received ("d#500#800" ++ LF)) self =
    (Return tt, self, [print "Received: d#500#800"; data_received 500 800])
  /\ samples (log_of (poll [received "d#500#"; received ("800" ++ LF)] self)) = [].
Proof.
  intros Hc Hs. open_handler self.
  destruct fault as [e|], act; split; reflexivity.
Qed.

Lemma whole_line_decodes_split_line_does_not_witness :
  connected (scanning None) = true /\ scan_active (scanning None) = true /\
  _read_serial_data (received ("d#500#800" ++ LF)) (scanning None) =
    (Return tt, scanning None,
     [print "Received: d#500#800"; data_received 500 800])
  /\ samples (log_of (poll [received "d#500#"; received ("800" ++ LF)]
                           (scanning None))) = [].
Proof.
  split; [reflexivity|]. split; [reflexivity|].
  apply (whole_line_decodes_split_line_does_not (scanning None)); reflexivity.
Defined.

(** ** Metrics *)

(** C6: for the spectrum holding the single sample (500, 800), whatever the
    metrics were before, the recomputed record is peak_value = 500,
    centroid = 500, max_intensity = 800, fwhm = 0, auc = 0, snr = 0; it is
    also the record published after adding that sample to a new store. *)
Theorem single_sample_metrics m :
  metrics (calculate_metrics {| data_points := [(500, 800)%Z]; metrics := m |}) =
    {| peak_value := 500; centroid := 500; max_intensity := 800;
       fwhm := 0; snr := Snr_zero; auc := 0 |}
  /\ metrics (add_data_point 500 800 new_processor) =
    {| peak_value := 500; centroid := 500; max_intensity := 800;
       fwhm := 0; snr := Snr_zero; auc := 0 |}.
Proof. split; reflexivity. Qed.






(** C9: [fwhm] can be negative.  For the non-empty spectrum (600,100),
    (400,100), whose wavelengths are not monotone, both intensities exceed
    half the maximum, so the left index is 0 and the right index is 1 and
    [fwhm] is 400 - 600 = -200. *)
Theorem fwhm_can_be_negative :
  exists points,
    points = [(600, 100); (400, 100)]%Z
    /\ points <> []
    /\ ~ monotone (map fst points)
    /\ (forall m,
          fwhm (metrics (calculate_metrics {| data_points := points; metrics := m |}))
          = -200 # 1)
    /\ (forall m,
          fwhm (metrics (calculate_metrics {| data_points := points; metrics := m |}))
          < 0).
Proof.
  exists [(600, 100); (400, 100)]%Z.
  split; [reflexivity|]. split; [discriminate|]. split.
  - cbn. intros [H _]. lia.
  - split; intros m; reflexivity.
Qed.

(** ** Worked runs *)

(** A foreign line and a line with four tokens are dropped and the line
    after them is decoded. *)
Example foreign_lines_are_skipped :
  poll [received ("foo#1#2" ++ LF); received ("d#1#2#3" ++ LF);
        received ("d#500#800" ++ LF)] (scanning None) =
    (Return tt, scanning None,
     [print "Received: foo#1#2"; print "Received: d#1#2#3";
      print "Received: d#500#800"; data_received 500 800]).
Proof. reflexivity. Qed.

(** Connect, start, receive one sample, disconnect: the full call order. *)
Example session :
  log_of
    ((_ <- connect_to_port "COM3" "9600"
            (Return {| is_open := true; write_fault := None |}) ;;
      _ <- start_scan ;;
      poll [received ("d#500#800" ++ LF)] ;;
      disconnect) init) =
    [serial_open "COM3" 9600; connection_status_changed true "COM3" "9600";
     serial_write START_FRAME; timer_start 100;
     print "Received: d#500#800"; data_received 500 800;
     serial_write STOP_FRAME; timer_stop;
     serial_close; connection_status_changed false "" ""].
Proof. reflexivity. Qed.

(** A triangular peak sampled every 10 nm from 400 to 600 with maximum 100
    at 500: the peak is at 500 and the width above half maximum runs from
    460 to 540. *)
Example triangular_peak :
  let points :=
    [(400, 0); (410, 10); (420, 20); (430, 30); (440, 40); (450, 50);
     (460, 60); (470, 70); (480, 80); (490, 90); (500, 100); (510, 90);
     (520, 80); (530, 70); (540, 60); (550, 50); (560, 40); (570, 30);
     (580, 20); (590, 10); (600, 0)]%Z in
  peak_value (metrics_of points) = 500
  /\ fwhm (metrics_of points) = 80
  /\ auc (metrics_of points) = 10000.
Proof. cbv zeta. repeat split; reflexivity. Qed.

(** Two samples below a tenth of the maximum give a noise estimate. *)
Example snr_over_noise :
  snr (metrics_of [(1, 0); (2, 1); (3, 3); (4, 100); (5, 2)]%Z) =
    Snr_over_std 100 (5 # 4).
Proof. reflexivity. Qed.

(** ** Decimal text and the string primitives *)

Lemma all_chars_app p s t :
  Py.all_chars p (s ++ t) = Py.all_chars p s && Py.all_chars p t.
Proof.
  induction s as [|c s IH]; [reflexivity|].
  cbn. rewrite IH. apply andb_assoc.
Qed.

Lemma all_chars_weaken (p q : ascii -> bool) s :
  (forall c, p c = true -> q c = true) ->
  Py.all_chars p s = true -> Py.all_chars q s = true.
Proof.
  intros Hpq. induction s as [|c s IH]; [reflexivity|].
  cbn. intros H. apply andb_true_iff in H as [Hc Hs].
  rewrite (Hpq _ Hc), (IH Hs). reflexivity.
Qed.

Lemma plain_char c :
  plain c = true ->
  Py.isspace c = false /\ Py.c_isspace c = false
  /\ Ascii.eqb c "#" = false /\ Ascii.eqb c "," = false
  /\ (nat_of_ascii c <? 128)%nat = true.
Proof.
  destruct c as [[] [] [] [] [] [] [] []]; cbn; intros H;
    try discriminate H; repeat split; reflexivity.
Qed.

Lemma digit_is_plain c : Py.isdigit c = true -> plain c = true.
Proof. unfold plain. intros ->. reflexivity. Qed.

Lemma digit_char_spec d :
  (0 <= d < 10)%Z ->
  Py.isdigit (Py.digit_char d) = true
  /\ Py.digit_value (Py.digit_char d) = d.
Proof.
  intros H.
  assert (E : (d = 0 \/ d = 1 \/ d = 2 \/ d = 3 \/ d = 4 \/ d = 5 \/ d = 6
               \/ d = 7 \/ d = 8 \/ d = 9)%Z) by lia.
  repeat (destruct E as [->|E]; [split; reflexivity|]).
  subst d. split; reflexivity.
Qed.

(** Reading one more digit after a literal multiplies by ten and adds it. *)
Lemma digits_snoc s : forall acc b v c,
  Py.digits acc b s = Some v -> Py.isdigit c = true ->
  Py.digits acc b (s ++ String c "") = Some (10 * v + Py.digit_value c)%Z.
Proof.
  induction s as [|a s IH]; intros acc b v c Hs Hc.
  - cbn in Hs. destruct b; [|discriminate]. injection Hs as <-.
    cbn. rewrite Hc. reflexivity.
  - cbn in Hs |- *. destruct (Py.isdigit a).
    + apply IH; assumption.
    + destruct (Ascii.eqb a "_"); [|discriminate].
      destruct b; [|discriminate]. apply IH; assumption.
Qed.

Lemma single_digit d :
  (0 <= d < 10)%Z ->
  Py.digits 0 false (String (Py.digit_char d) "") = Some d
  /\ Py.all_chars Py.isdigit (String (Py.digit_char d) "") = true.
Proof.
  intros H.
  assert (E : (d = 0 \/ d = 1 \/ d = 2 \/ d = 3 \/ d = 4 \/ d = 5 \/ d = 6
               \/ d = 7 \/ d = 8 \/ d = 9)%Z) by lia.
  repeat (destruct E as [->|E]; [split; reflexivity|]).
  subst d. split; reflexivity.
Qed.

Lemma str_digits_S f n :
  Py.str_digits (S f) n =
    if (n <? 10)%Z then String (Py.digit_char n) ""
    else Py.str_digits f (n / 10) ++ String (Py.digit_char (n mod 10)) "".
Proof. reflexivity. Qed.

Lemma str_digits_value f : forall n,
  (0 <= n < 2 ^ Z.of_nat (S f))%Z ->
  Py.digits 0 false (Py.str_digits (S f) n) = Some n
  /\ Py.all_chars Py.isdigit (Py.str_digits (S f) n) = true
  /\ Py.str_digits (S f) n <> "".
Proof.
  induction f as [|f IH]; intros n Hn.
  - assert (Hs : (n < 10)%Z) by (change (2 ^ Z.of_nat 1)%Z with 2%Z in Hn; lia).
    rewrite (str_digits_S 0 n). destruct (Z.ltb_spec n 10) as [_|]; [|lia].
    destruct (single_digit n) as [Hv Ha]; [lia|].
    split; [exact Hv|]. split; [exact Ha|discriminate].
  - rewrite (str_digits_S (S f) n). destruct (Z.ltb_spec n 10) as [Hs|Hs].
    + destruct (single_digit n) as [Hv Ha]; [lia|].
      split; [exact Hv|]. split; [exact Ha|discriminate].
    + assert (Hq : (0 <= n / 10 < 2 ^ Z.of_nat (S f))%Z).
      { split; [apply Z.div_pos; lia|].
        apply Z.div_lt_upper_bound; [lia|].
        rewrite (Nat2Z.inj_succ (S f)), Z.pow_succ_r in Hn by lia. lia. }
      destruct (IH _ Hq) as [Hv [Ha Hne]].
      destruct (digit_char_spec (n mod 10)) as [Hd Hdv];
        [apply Z.mod_pos_bound; lia|].
      split; [|split].
      * rewrite (digits_snoc _ _ _ _ _ Hv Hd), Hdv. f_equal.
        rewrite (Z.div_mod n 10) at 3 by lia. reflexivity.
      * rewrite all_chars_app, Ha. cbn [Py.all_chars andb]. rewrite Hd. reflexivity.
      * destruct (Py.str_digits (S f) (n / 10)); [contradiction|discriminate].
Qed.

Lemma log2_fuel n :
  (0 <= n)%Z -> (0 <= n < 2 ^ Z.of_nat (S (Z.to_nat (Z.log2 n))))%Z.
Proof.
  intros Hn. split; [assumption|].
  rewrite Nat2Z.inj_succ, Z2Nat.id by apply Z.log2_nonneg.
  destruct (Z.eq_dec n 0) as [->|Hz]; [reflexivity|].
  apply Z.log2_spec. lia.
Qed.

Lemma lstrip_with_keeps space c r :
  space c = false -> Py.lstrip_with space (String c r) = String c r.
Proof. intros H. cbn. rewrite H. reflexivity. Qed.

(** Trailing whitespace after text without whitespace is exactly what
    [rstrip] removes. *)
Lemma rstrip_with_app space s t :
  Py.all_chars (fun c => negb (space c)) s = true ->
  Py.all_chars space t = true ->
  Py.rstrip_with space (s ++ t) = s.
Proof.
  intros Hs Ht. induction s as [|c s IH].
  - cbn. induction t as [|a t IHt]; [reflexivity|].
    cbn in Ht |- *. apply andb_true_iff in Ht as [Ha Ht].
    rewrite (IHt Ht), Ha. reflexivity.
  - cbn in Hs |- *. apply andb_true_iff in Hs as [Hc Hs].
    rewrite (IH Hs). apply negb_true_iff in Hc. rewrite Hc.
    destruct s; reflexivity.
Qed.

Lemma rstrip_with_id space s :
  Py.all_chars (fun c => negb (space c)) s = true ->
  Py.rstrip_with space s = s.
Proof.
  intros Hs. rewrite <- (rstrip_with_app space s "" Hs eq_refl) at 2.
  f_equal. induction s as [|c s IH]; [reflexivity|]. cbn. f_equal.
  apply IH. cbn in Hs. apply andb_true_iff in Hs as [_ Hs]. exact Hs.
Qed.

Lemma split_none sep s :
  Py.all_chars (fun c => negb (Ascii.eqb c sep)) s = true ->
  Py.split sep s = [s].
Proof.
  induction s as [|c s IH]; [reflexivity|].
  cbn. intros H. apply andb_true_iff in H as [Hc Hs].
  apply negb_true_iff in Hc. rewrite Hc, (IH Hs). reflexivity.
Qed.

Lemma split_app_sep sep s t :
  Py.all_chars (fun c => negb (Ascii.eqb c sep)) s = true ->
  Py.split sep (s ++ String sep t) = s :: Py.split sep t.
Proof.
  induction s as [|c s IH]; cbn.
  - intros _. rewrite Ascii.eqb_refl. reflexivity.
  - intros H. apply andb_true_iff in H as [Hc Hs].
    apply negb_true_iff in Hc. rewrite Hc, (IH Hs). reflexivity.
Qed.

Lemma str_int_plain z : Py.all_chars plain (Py.str_int z) = true.
Proof.
  unfold Py.str_int. destruct (Z.ltb_spec z 0) as [Hz|Hz].
  - cbn [Py.all_chars]. destruct (str_digits_value _ _ (log2_fuel (- z) ltac:(lia)))
      as [_ [Ha _]].
    rewrite (all_chars_weaken _ _ _ digit_is_plain Ha). reflexivity.
  - destruct (str_digits_value _ _ (log2_fuel z Hz)) as [_ [Ha _]].
    exact (all_chars_weaken _ _ _ digit_is_plain Ha).
Qed.

Lemma int_of_digits s :
  Py.all_chars Py.isdigit s = true -> s <> "" ->
  Py.int s = Py.digits 0 false s.
Proof.
  intros Ha Hne. unfold Py.int.
  assert (Hns : Py.all_chars (fun c => negb (Py.c_isspace c)) s = true).
  { apply (all_chars_weaken plain).
    - intros c Hc. destruct (plain_char c Hc) as [_ [-> _]]. reflexivity.
    - exact (all_chars_weaken _ _ _ digit_is_plain Ha). }
  destruct s as [|c r]; [contradiction|].
  cbn in Hns. apply andb_true_iff in Hns as [Hc Hr].
  apply negb_true_iff in Hc. rewrite (lstrip_with_keeps _ _ _ Hc).
  rewrite rstrip_with_id by (cbn; rewrite Hc, Hr; reflexivity).
  cbn in Ha. apply andb_true_iff in Ha as [Hd _].
  destruct c as [[] [] [] [] [] [] [] []]; try discriminate Hd; reflexivity.
Qed.

(** [int(str(z))] is [z]. *)
Lemma int_str_int z : Py.int (Py.str_int z) = Some z.
Proof.
  unfold Py.str_int. destruct (Z.ltb_spec z 0) as [Hz|Hz].
  - destruct (str_digits_value _ _ (log2_fuel (- z) ltac:(lia)))
      as [Hv [Ha _]].
    set (ds := Py.str_digits _ _) in *.
    assert (Hns : Py.all_chars (fun c => negb (Py.c_isspace c)) ds = true).
    { apply (all_chars_weaken plain).
      - intros c Hc. destruct (plain_char c Hc) as [_ [-> _]]. reflexivity.
      - exact (all_chars_weaken _ _ _ digit_is_plain Ha). }
    unfold Py.int. rewrite lstrip_with_keeps by reflexivity.
    rewrite rstrip_with_id by (cbn; exact Hns).
    rewrite Hv. cbn. f_equal. lia.
  - destruct (str_digits_value _ _ (log2_fuel z Hz)) as [Hv [Ha Hne]].
    rewrite (int_of_digits _ Ha Hne). exact Hv.
Qed.



Lemma plain_no (sep : ascii) s :
  (forall c, plain c = true -> Ascii.eqb c sep = false) ->
  Py.all_chars plain s = true ->
  Py.all_chars (fun c => negb (Ascii.eqb c sep)) s = true.
Proof.
  intros Hsep. apply all_chars_weaken. intros c Hc.
  rewrite (Hsep c Hc). reflexivity.
Qed.








(** ** The handler under arbitrary command sequences *)

Ltac crack_state self :=
  let e := fresh "e" in
  let t := fresh "t" in
  destruct self as [[[[] [e|]]|] [[] t] []].

Ltac crack_goal :=
  repeat match goal with
         | |- context [match ?x with _ => _ end] =>
             lazymatch x with
             | context [match _ with _ => _ end] => fail
             | _ => destruct x eqn:?
             end
         end.

(** How a sequenced method runs: the first part returns and the second runs
    in its state, or the first part raises and the second is skipped. *)
Lemma bind_cases {A B} (m : M A) (k : A -> M B) self :
  (exists a, value_of (m self) = Return a
             /\ bind m k self =
                  (value_of (k a (state_of (m self))),
                   state_of (k a (state_of (m self))),
                   (log_of (m self) ++ log_of (k a (state_of (m self))))%list))
  \/ (exists e, value_of (m self) = Raise e
                /\ bind m k self = (Raise e, state_of (m self), log_of (m self))).
Proof.
  unfold bind, value_of, state_of, log_of.
  destruct (m self) as [[[a|e] s1] l1]; cbn.
  - left. exists a. split; [reflexivity|].
    destruct (k a s1) as [[r s2] l2]. reflexivity.
  - right. exists e. split; reflexivity.
Qed.

Ltac tick_branches rx :=
  let n := fresh "n" in
  let raw := fresh "raw" in
  destruct rx as [[n|?] [raw|?]];
  unfold _read_serial_data, bind, get, try_except, lift, record, int_; cbn;
  try destruct (n =? 0)%Z; cbn;
  try destruct (Py.startswith (Py.strip (Py.decode raw)) "d#"); cbn;
  try destruct (Nat.eqb _ 3); cbn;
  try destruct (Py.int (nth 1 _ _)); cbn;
  try destruct (Py.int (nth 2 _ _)); cbn.

(** What a tick can do to the handler: nothing, stop the timer, or (only
    during an active scan on an open port) report and run [stop_scan]. *)
Lemma tick_cases rx self :
  exists log,
    (_read_serial_data rx self = (Return tt, self, log)
     /\ existsb port_traffic log = false)
    \/ (_read_serial_data rx self =
          (Return tt,
           {| serial_port := serial_port self;
              timer := {| isActive := false; interval := interval (timer self) |};
              scan_active := scan_active self |}, log)
        /\ existsb port_traffic log = false)
    \/ (connected self = true /\ scan_active self = true /\
        exists pre, log = (pre ++ log_of (stop_scan self))%list
                    /\ existsb port_traffic pre = false
                    /\ _read_serial_data rx self =
                         (Return tt, state_of (stop_scan self), log)).
Proof.
  crack_state self; tick_branches rx;
    try (eexists; left; split; reflexivity);
    try (eexists; right; left; split; reflexivity);
    try (eexists; right; right; split; [reflexivity|]; split; [reflexivity|];
         first [ eexists [_]; repeat split; reflexivity
               | eexists [_; _]; repeat split; reflexivity ]).
Qed.

Ltac connect_branches baud_rate driver :=
  unfold run_command, connect_to_port, bind, get, lift, record;
  cbn;
  destruct (Py.int baud_rate) eqn:?; cbn;
  try (destruct driver as [?|[?|?|?]]; cbn).

Ltac command_branches c :=
  let port := fresh "port" in
  let baud_rate := fresh "baud_rate" in
  let driver := fresh "driver" in
  let rx := fresh "rx" in
  let fault := fresh "fault" in
  destruct c as [port baud_rate driver| | | |rx|fault];
  [ connect_branches baud_rate driver
  | cbn | cbn | cbn
  | unfold run_command; cbn; try tick_branches rx
  | cbn ].

Lemma command_keeps_timer_flag c self :
  (isActive (timer self) = true -> scan_active self = true) ->
  isActive (timer (state_of (run_command c self))) = true ->
  scan_active (state_of (run_command c self)) = true.
Proof.
  crack_state self; command_branches c; cbn; intros H1 H2;
    try reflexivity; try discriminate; auto.
Qed.

Lemma run_cons c rest self :
  (exists s1,
      run_command c self = (Return tt, s1, log_of (run_command c self))
      /\ run (c :: rest) self =
           (value_of (run rest s1), state_of (run rest s1),
            (log_of (run_command c self) ++ log_of (run rest s1))%list))
  \/ (exists e,
         value_of (run_command c self) = Raise e
         /\ run (c :: rest) self =
              (Raise e, state_of (run_command c self),
               log_of (run_command c self))).
Proof.
  cbn [run]. destruct (bind_cases (run_command c) (fun _ => run rest) self)
    as [[[] [Hv Hb]]|[e [Hv Hb]]].
  - left. exists (state_of (run_command c self)). split; [|exact Hb].
    destruct (run_command c self) as [[r s1] l1]. cbn in *. subst r. reflexivity.
  - right. exists e. split; assumption.
Qed.

(** X2.  The poll timer runs only while a scan is flagged: after any
    sequence of commands from a fresh handler, an active timer implies
    [scan_active]. *)
Theorem timer_active_implies_scan_active cs :
  isActive (timer (state_of (run cs init))) = true ->
  scan_active (state_of (run cs init)) = true.
Proof.
  assert (G : forall self,
             (isActive (timer self) = true -> scan_active self = true) ->
             isActive (timer (state_of (run cs self))) = true ->
             scan_active (state_of (run cs self)) = true).
  { induction cs as [|c rest IH]; intros self Hinv; [exact Hinv|].
    pose proof (command_keeps_timer_flag c self Hinv) as Hstep.
    destruct (run_cons c rest self) as [[s1 [E1 E2]]|[e [Hv E2]]].
    - rewrite E2. cbn [state_of fst snd]. apply IH.
      rewrite E1 in Hstep. exact Hstep.
    - rewrite E2. cbn [state_of fst snd]. exact Hstep. }
  apply G. discriminate.
Qed.

Lemma timer_active_implies_scan_active_witness :
  isActive (timer (state_of
    (run [Connect "COM3" "9600" (Return {| is_open := true; write_fault := None |});
          StartScan] init))) = true
  /\ scan_active (state_of
    (run [Connect "COM3" "9600" (Return {| is_open := true; write_fault := None |});
          StartScan] init)) = true.
Proof.
  split; [reflexivity|].
  apply (timer_active_implies_scan_active
           [Connect "COM3" "9600" (Return {| is_open := true; write_fault := None |});
            StartScan]).
  reflexivity.
Defined.

Lemma command_returns c self :
  sound_command c -> value_of (run_command c self) = Return tt.
Proof.
  intros Hc. crack_state self; command_branches c; cbn; try reflexivity;
    cbn in Hc; destruct Hc as [Hb Hd]; try congruence;
    destruct (Hd _ eq_refl) as [m Hm]; discriminate Hm.
Qed.

(** X3.  No exception escapes the handler: a sequence of commands in which
    every [Connect] has an integer baud rate text and a driver that fails
    only with [SerialException] runs to its end, from any state. *)
Theorem sound_commands_never_raise cs : forall self,
  Forall sound_command cs -> value_of (run cs self) = Return tt.
Proof.
  induction cs as [|c rest IH]; intros self Hall; [reflexivity|].
  inversion Hall as [|? ? Hc Hrest]; subst.
  pose proof (command_returns c self Hc) as Hv.
  destruct (run_cons c rest self) as [[s1 [E1 E2]]|[e [Hv' E2]]].
  - rewrite E2. cbn [value_of fst]. apply IH, Hrest.
  - rewrite Hv in Hv'. discriminate.
Qed.

Lemma sound_commands_never_raise_witness :
  Forall sound_command
    [Connect "COM3" "9600" (Raise (SerialException "busy")); StartScan;
     Tick device_lost; Disconnect]
  /\ value_of
       (run [Connect "COM3" "9600" (Raise (SerialException "busy")); StartScan;
             Tick device_lost; Disconnect] init) = Return tt.
Proof.
  assert (H : Forall sound_command
                [Connect "COM3" "9600" (Raise (SerialException "busy"));
                 StartScan; Tick device_lost; Disconnect]).
  { repeat constructor.
    - discriminate.
    - intros e He. injection He as <-. exists "busy". reflexivity. }
  split; [exact H|].
  exact (sound_commands_never_raise _ init H).
Defined.

(** X4.  A handler whose port is absent or closed never touches the port:
    whatever the command, its log holds no write and no close. *)
Theorem no_port_traffic_when_not_connected c self :
  connected self = false ->
  existsb port_traffic (log_of (run_command c self)) = false.
Proof.
  intros Hc. crack_state self; try discriminate Hc;
    command_branches c; cbn; reflexivity.
Qed.

Lemma no_port_traffic_when_not_connected_witness :
  connected orphaned_scan = false
  /\ existsb port_traffic (log_of (run_command StopScan orphaned_scan)) = false.
Proof.
  split; [reflexivity|].
  apply (no_port_traffic_when_not_connected StopScan orphaned_scan).
  reflexivity.
Defined.

Lemma command_writes_only_frames c self :
  forallb only_frames (log_of (run_command c self)) = true.
Proof.
  crack_state self; command_branches c; cbn; reflexivity.
Qed.

(** X5.  The only bytes the handler ever sends are the two command frames:
    in the log of any command sequence from any state, every port write is
    the start frame or the stop frame. *)
Theorem handler_writes_only_command_frames cs : forall self,
  forallb only_frames (log_of (run cs self)) = true.
Proof.
  induction cs as [|c rest IH]; intros self; [reflexivity|].
  pose proof (command_writes_only_frames c self) as Hc.
  destruct (run_cons c rest self) as [[s1 [E1 E2]]|[e [Hv E2]]];
    rewrite E2; cbn [log_of snd].
  - rewrite forallb_app, Hc, IH. reflexivity.
  - exact Hc.
Qed.

(** ** The methods one by one *)

(** X6.  [start_scan] never raises and has two outcomes: it returns [True]
    and then the port is open and a scan is flagged, or it returns [False]
    after emitting an error and then the handler is unchanged and the timer
    was not started. *)
Theorem start_scan_outcome self :
  (value_of (start_scan self) = Return true
   /\ connected (state_of (start_scan self)) = true
   /\ scan_active (state_of (start_scan self)) = true)
  \/ (value_of (start_scan self) = Return false
      /\ state_of (start_scan self) = self
      /\ existsb is_error (log_of (start_scan self)) = true
      /\ existsb is_timer_start (log_of (start_scan self)) = false).
Proof.
  crack_state self; cbn;
    first [ left; repeat split; reflexivity | right; repeat split; reflexivity ].
Qed.

(** X7.  Starting twice starts once: after a [start_scan] that returned
    [True], another [start_scan] returns [True] again, sends nothing and
    changes nothing. *)
Theorem start_scan_twice self :
  value_of (start_scan self) = Return true ->
  start_scan (state_of (start_scan self)) =
    (Return true, state_of (start_scan self), []).
Proof.
  crack_state self; cbn; intros H; try discriminate H; reflexivity.
Qed.

Lemma start_scan_twice_witness :
  value_of (start_scan (state_of (run [Connect "COM3" "9600" (Return healthy_port)] init)))
    = Return true
  /\ start_scan
       (state_of (start_scan
          (state_of (run [Connect "COM3" "9600" (Return healthy_port)] init)))) =
     (Return true,
      state_of (start_scan
        (state_of (run [Connect "COM3" "9600" (Return healthy_port)] init))),
      []).
Proof.
  split; [reflexivity|].
  apply (start_scan_twice
           (state_of (run [Connect "COM3" "9600" (Return healthy_port)] init))).
  reflexivity.
Defined.



(** X9.  [disconnect] always leaves the port not open, whatever the state
    and whether or not the stop frame could be written, and a second
    [disconnect] does nothing: no write, no close, no status signal. *)
Theorem disconnect_closes_and_is_idempotent self :
  value_of (disconnect self) = Return tt
  /\ connected (state_of (disconnect self)) = false
  /\ disconnect (state_of (disconnect self)) =
       (Return tt, state_of (disconnect self), []).
Proof.
  crack_state self; cbn; repeat split; reflexivity.
Qed.

(** X10.  A stale scan flag makes [start_scan] report success without
    starting anything.  After the cable is pulled during a scan, the user
    disconnects, one timer interval elapses and the user reconnects, the
    port is open, the timer is stopped and [scan_active] is still set; a
    [start_scan] in that state returns [True] and records no call at all:
    no start frame is written and the timer is not started. *)
Theorem stale_scan_flag_blocks_restart :
  exists cs,
    cs = unplugged_session
    /\ value_of (run cs init) = Return tt
    /\ connected (state_of (run cs init)) = true
    /\ isActive (timer (state_of (run cs init))) = false
    /\ scan_active (state_of (run cs init)) = true
    /\ start_scan (state_of (run cs init)) =
         (Return true, state_of (run cs init), []).
Proof.
  exists unplugged_session. repeat split; reflexivity.
Qed.

(** X11.  A successful [connect_to_port] replaces the port: when the baud
    rate text is an integer and the driver opens the port, the call returns
    [True], the handler holds the new port, and the log ends with the open
    and the status signal.  If a port was open before, it is closed before
    the new one is opened; if none was, nothing precedes the open. *)
Theorem connect_to_port_success port baud_rate baud p self :
  Py.int baud_rate = Some baud -> is_open p = true ->
  exists before,
    connect_to_port port baud_rate (Return p) self =
      (Return true,
       {| serial_port := Some p;
          timer := timer (state_of (disconnect self));
          scan_active := scan_active (state_of (disconnect self)) |},
       (before ++ [serial_open port baud;
                   connection_status_changed true port baud_rate])%list)
    /\ before = log_of (disconnect self)
    /\ existsb is_close before = connected self
    /\ existsb is_open_call before = false
    /\ connected (state_of (connect_to_port port baud_rate (Return p) self)) = true.
Proof.
  intros Hb Hp. destruct p as [o f]. cbn in Hp. subst o.
  crack_state self; unfold connect_to_port, bind, get, lift, record; cbn;
    rewrite Hb; cbn; eexists; repeat split; reflexivity.
Qed.

Lemma connect_to_port_success_witness :
  Py.int "9600" = Some 9600%Z /\ is_open healthy_port = true /\
  exists before,
    connect_to_port "COM3" "9600" (Return healthy_port) (scanning None) =
      (Return true,
       {| serial_port := Some healthy_port;
          timer := timer (state_of (disconnect (scanning None)));
          scan_active := scan_active (state_of (disconnect (scanning None))) |},
       (before ++ [serial_open "COM3" 9600;
                   connection_status_changed true "COM3" "9600"])%list)
    /\ before = log_of (disconnect (scanning None))
    /\ existsb is_close before = connected (scanning None)
    /\ existsb is_open_call before = false
    /\ connected (state_of (connect_to_port "COM3" "9600" (Return healthy_port)
                              (scanning None))) = true.
Proof.
  split; [reflexivity|]. split; [reflexivity|].
  apply (connect_to_port_success "COM3" "9600" 9600%Z healthy_port (scanning None));
    reflexivity.
Defined.

(** X12.  A [connect_to_port] refused by the driver leaves no port behind:
    when the constructor raises [SerialException], the call returns [False],
    [serial_port] is [None] whatever it was before, and the log ends with
    the open attempt, the error signal carrying the exception text and the
    status signal [(False, "", "")]. *)
Theorem connect_to_port_refused port baud_rate baud m self :
  Py.int baud_rate = Some baud ->
  connect_to_port port baud_rate (Raise (SerialException m)) self =
    (Return false,
     {| serial_port := None;
        timer := timer (state_of (disconnect self));
        scan_active := scan_active (state_of (disconnect self)) |},
     (log_of (disconnect self)
      ++ [serial_open port baud; error_occurred m;
          connection_status_changed false "" ""])%list).
Proof.
  intros Hb.
  crack_state self; unfold connect_to_port, bind, get, lift, record; cbn;
    rewrite Hb; cbn; reflexivity.
Qed.

Lemma connect_to_port_refused_witness :
  Py.int "9600" = Some 9600%Z /\
  connect_to_port "COM9" "9600" (Raise (SerialException "could not open port"))
    init =
    (Return false, init,
     [serial_open "COM9" 9600; error_occurred "could not open port";
      connection_status_changed false "" ""]).
Proof.
  split; [reflexivity|].
  apply (connect_to_port_refused "COM9" "9600" 9600%Z "could not open port" init).
  reflexivity.
Defined.



(** ** The data store behind the handler *)

Lemma add_data_point_points x y st :
  data_points (add_data_point x y st) = (data_points st ++ [(x, y)])%list.
Proof.
  unfold add_data_point, calculate_metrics. cbn [data_points].
  destruct (data_points st ++ [(x, y)])%list; reflexivity.
Qed.

Lemma calculate_metrics_consistent st : consistent (calculate_metrics st).
Proof.
  unfold consistent, calculate_metrics.
  destruct (data_points st) as [|p ps] eqn:E; cbn; rewrite ?E; reflexivity.
Qed.

Lemma deliver_points log : forall st,
  data_points (deliver log st) = (data_points st ++ samples log)%list.
Proof.
  induction log as [|c log IH]; intros st; cbn.
  - rewrite app_nil_r. reflexivity.
  - unfold deliver in IH. destruct c; cbn; rewrite IH; try reflexivity.
    rewrite add_data_point_points, <- app_assoc. reflexivity.
Qed.

(** X14.  The store follows the handler's log: after the emissions of any
    call log have reached their slots, the store holds its former points
    followed by the log's samples in order, nothing else having touched it,
    and its metrics are still the ones computed from its points. *)
Theorem deliver_appends_and_keeps_consistent log st :
  consistent st ->
  data_points (deliver log st) = (data_points st ++ samples log)%list
  /\ consistent (deliver log st).
Proof.
  intros Hst. split; [apply deliver_points|].
  revert st Hst. induction log as [|c log IH]; intros st Hst; [exact Hst|].
  unfold deliver in *. cbn [fold_left].
  apply IH. destruct c; cbn [slot]; try exact Hst.
  apply calculate_metrics_consistent.
Qed.

Lemma deliver_appends_and_keeps_consistent_witness :
  consistent new_processor
  /\ data_points
       (deliver [print "Received: d#500#800"; data_received 500 800;
                 error_occurred "Error reading serial data: device lost";
                 data_received 510 640] new_processor)
     = [(500, 800); (510, 640)]%Z
  /\ consistent
       (deliver [print "Received: d#500#800"; data_received 500 800;
                 error_occurred "Error reading serial data: device lost";
                 data_received 510 640] new_processor).
Proof.
  split; [reflexivity|].
  apply (deliver_appends_and_keeps_consistent
           [print "Received: d#500#800"; data_received 500 800;
            error_occurred "Error reading serial data: device lost";
            data_received 510 640] new_processor).
  reflexivity.
Defined.



(** ** What the metrics mean *)

Lemma fold_max_bounds r : forall b,
  (b <= fold_left Z.max r b)%Z
  /\ (forall x, In x r -> (x <= fold_left Z.max r b)%Z).
Proof.
  induction r as [|a r IH]; intros b; cbn.
  - split; [lia|]. intros x [].
  - destruct (IH (Z.max b a)) as [H1 H2]. split; [lia|].
    intros x [<-|Hx]; [lia|]. apply H2, Hx.
Qed.

Lemma fold_max_fixed r : forall b,
  (forall x, In x r -> (x <= b)%Z) -> fold_left Z.max r b = b.
Proof.
  induction r as [|a r IH]; intros b H; [reflexivity|].
  cbn. rewrite Z.max_l by (apply H; left; reflexivity).
  apply IH. intros x Hx. apply H. right. exact Hx.
Qed.

(** The scan of [argmax]: either nothing in [r] beats [best] and the index
    stays, or the result points into [r] at the first place holding the
    maximum. *)
Lemma argmax_from_spec r : forall best bi i,
  (np.argmax_from best bi i r = bi
   /\ (forall x, In x r -> (x <= best)%Z))
  \/ (exists j, np.argmax_from best bi i r = (i + j)%nat
                /\ (j < List.length r)%nat
                /\ nth j r 0%Z = fold_left Z.max r best
                /\ (best < nth j r 0%Z)%Z
                /\ (forall j', (j' < j)%nat -> (nth j' r 0%Z < nth j r 0%Z)%Z)).
Proof.
  induction r as [|x r IH]; intros best bi i.
  - left. split; [reflexivity|]. intros x [].
  - cbn [np.argmax_from fold_left]. destruct (Z.ltb_spec best x) as [Hlt|Hge].
    + right. rewrite Z.max_r by lia.
      destruct (IH x i (S i)) as [[E Hall]|[j [E [Hj [Hn [Hb Hfirst]]]]]].
      * exists 0%nat. rewrite E, Nat.add_0_r. cbn [nth List.length].
        rewrite (fold_max_fixed r x Hall).
        repeat split; lia.
      * exists (S j). rewrite E. cbn [nth List.length].
        repeat split; try lia; try exact Hn.
        intros [|j'] Hj'; [lia|]. apply Hfirst. lia.
    + rewrite Z.max_l by lia.
      destruct (IH best bi (S i)) as [[E Hall]|[j [E [Hj [Hn [Hb Hfirst]]]]]].
      * left. split; [exact E|]. intros y [<-|Hy]; [lia|]. apply Hall, Hy.
      * right. exists (S j). rewrite E. cbn [nth List.length].
        repeat split; try lia; try exact Hn.
        intros [|j'] Hj'; [lia|]. apply Hfirst. lia.
Qed.

Lemma argmax_spec a :
  a <> [] ->
  (np.argmax a < List.length a)%nat
  /\ nth (np.argmax a) a 0%Z = np.max a
  /\ (forall x, In x a -> (x <= np.max a)%Z)
  /\ (forall j, (j < np.argmax a)%nat -> (nth j a 0%Z < np.max a)%Z).
Proof.
  destruct a as [|x r]; [contradiction|]. intros _.
  unfold np.argmax, np.max.
  assert (Hub : forall y, In y (x :: r) -> (y <= fold_left Z.max r x)%Z).
  { destruct (fold_max_bounds r x) as [H1 H2].
    intros y [<-|Hy]; [exact H1|apply H2, Hy]. }
  destruct (argmax_from_spec r x 0%nat 1%nat)
    as [[E Hall]|[j [E [Hj [Hn [Hb Hfirst]]]]]]; rewrite E.
  - rewrite (fold_max_fixed r x Hall) in *. cbn [nth List.length].
    split; [lia|]. split; [reflexivity|]. split; [exact Hub|]. intros j Hj. lia.
  - cbn [Nat.add nth List.length]. rewrite <- Hn.
    split; [lia|]. split; [reflexivity|]. split.
    + intros y Hy. rewrite Hn. apply Hub, Hy.
    + intros [|j'] Hj'; cbn [nth]; [exact Hb|]. apply Hfirst. lia.
Qed.

(** X16.  [peak_value] and [max_intensity] are read off one point of the
    spectrum: the first point whose intensity is the largest.  No point has
    a larger intensity and every earlier point has a strictly smaller one. *)
Theorem peak_is_first_maximum points :
  points <> [] ->
  exists i,
    (i < List.length points)%nat
    /\ peak_value (metrics_of points) == inject_Z (fst (nth i points (0, 0)%Z))
    /\ max_intensity (metrics_of points) == inject_Z (snd (nth i points (0, 0)%Z))
    /\ (forall p, In p points -> (snd p <= snd (nth i points (0, 0)%Z))%Z)
    /\ (forall j, (j < i)%nat ->
                  (snd (nth j points (0, 0)%Z) < snd (nth i points (0, 0)%Z))%Z).
Proof.
  intros Hne.
  assert (Hne' : map snd points <> []) by (destruct points; [contradiction|discriminate]).
  destruct (argmax_spec (map snd points) Hne') as [Hlt [Hmax [Hub Hfirst]]].
  rewrite length_map in Hlt.
  assert (Hsnd : forall k, nth k (map snd points) 0%Z = snd (nth k points (0, 0)%Z)).
  { intros k. apply (map_nth snd points (0, 0)%Z). }
  assert (Hfst : forall k, nth k (map fst points) 0%Z = fst (nth k points (0, 0)%Z)).
  { intros k. apply (map_nth fst points (0, 0)%Z). }
  exists (np.argmax (map snd points)). rewrite <- Hsnd, Hmax.
  split; [exact Hlt|]. unfold metrics_of. cbn [peak_value max_intensity].
  unfold float. rewrite !Qred_correct, Hfst.
  split; [reflexivity|]. split; [reflexivity|]. split.
  - intros p Hp. apply Hub, in_map, Hp.
  - intros j Hj. rewrite <- Hsnd. apply Hfirst, Hj.
Qed.

Lemma peak_is_first_maximum_witness :
  [(400, 7); (410, 9); (420, 9); (430, 2)]%Z <> [] /\
  exists i,
    (i < List.length [(400, 7); (410, 9); (420, 9); (430, 2)]%Z)%nat
    /\ peak_value (metrics_of [(400, 7); (410, 9); (420, 9); (430, 2)]%Z)
       == inject_Z (fst (nth i [(400, 7); (410, 9); (420, 9); (430, 2)]%Z (0, 0)%Z))
    /\ max_intensity (metrics_of [(400, 7); (410, 9); (420, 9); (430, 2)]%Z)
       == inject_Z (snd (nth i [(400, 7); (410, 9); (420, 9); (430, 2)]%Z (0, 0)%Z))
    /\ (forall p, In p [(400, 7); (410, 9); (420, 9); (430, 2)]%Z ->
                  (snd p <= snd (nth i [(400, 7); (410, 9); (420, 9); (430, 2)]%Z
                                   (0, 0)%Z))%Z)
    /\ (forall j, (j < i)%nat ->
                  (snd (nth j [(400, 7); (410, 9); (420, 9); (430, 2)]%Z (0, 0)%Z)
                   < snd (nth i [(400, 7); (410, 9); (420, 9); (430, 2)]%Z (0, 0)%Z))%Z).
Proof.
  split; [discriminate|].
  apply (peak_is_first_maximum [(400, 7); (410, 9); (420, 9); (430, 2)]%Z).
  discriminate.
Defined.




Lemma monotone_head a w :
  monotone (a :: w) -> forall j, (j < List.length w)%nat -> (a <= nth j w 0%Z)%Z.
Proof.
  revert a. induction w as [|b w IH]; intros a Hm j Hj; [cbn in Hj; lia|].
  destruct Hm as [Hab Hm]. destruct j as [|j]; [exact Hab|].
  cbn [nth]. cbn [List.length] in Hj.
  specialize (IH b Hm j ltac:(lia)). lia.
Qed.

Lemma monotone_tail a w : monotone (a :: w) -> monotone w.
Proof. destruct w; [intros _; exact I|]. intros [_ H]. exact H. Qed.

Lemma monotone_nth w : monotone w -> forall i j,
  (i < j)%nat -> (j < List.length w)%nat -> (nth i w 0%Z <= nth j w 0%Z)%Z.
Proof.
  induction w as [|a w IH]; intros Hm i j Hij Hj; [cbn in Hj; lia|].
  destruct j as [|j]; [lia|]. cbn [List.length] in Hj.
  destruct i as [|i]; cbn [nth].
  - apply (monotone_head a w Hm). lia.
  - apply IH; [exact (monotone_tail a w Hm)|lia|lia].
Qed.

(** X18.  When the wavelengths never decrease along the spectrum, [fwhm] is
    not negative. *)
Theorem fwhm_nonnegative_when_monotone points :
  monotone (map fst points) -> 0 <= fwhm (metrics_of points).
Proof.
  intros Hm. unfold metrics_of. cbn [fwhm]. unfold float. rewrite Qred_correct.
  set (above := map _ (map snd points)).
  destruct (np.any above); [|apply Qle_refl].
  set (left_idx := Z.of_nat (np.argmax_bool above)).
  set (right_idx := (Z.of_nat (List.length above)
                     - Z.of_nat (np.argmax_bool (rev above)) - 1)%Z).
  destruct (Z.ltb_spec left_idx right_idx) as [Hlr|]; [|apply Qle_refl].
  change 0 with (inject_Z 0). rewrite <- Zle_Qle. apply Zle_minus_le_0.
  assert (Hlen : List.length above = List.length (map fst points)).
  { subst above. rewrite !length_map. reflexivity. }
  apply (monotone_nth _ Hm); subst left_idx right_idx; lia.
Qed.

Lemma fwhm_nonnegative_when_monotone_witness :
  monotone (map fst [(400, 10); (410, 80); (420, 100); (430, 70); (440, 5)]%Z)
  /\ 0 <= fwhm (metrics_of [(400, 10); (410, 80); (420, 100); (430, 70); (440, 5)]%Z).
Proof.
  assert (H : monotone (map fst [(400, 10); (410, 80); (420, 100); (430, 70);
                                 (440, 5)]%Z)).
  { cbn. repeat split; lia. }
  split; [exact H|].
  exact (fwhm_nonnegative_when_monotone _ H).
Defined.






(** ** The CSV export *)

Lemma csv_row_read_back x y :
  read_row (csv_row [Py.str_int x; Py.str_int y]) = Some (x, y).
Proof.
  unfold read_row, csv_row. cbn [String.concat].
  assert (Hsp : forall z, Py.all_chars (fun c => negb (Py.isspace c)) (Py.str_int z) = true).
  { intros z. apply (all_chars_weaken plain); [|apply str_int_plain].
    intros c Hc. destruct (plain_char c Hc) as [-> _]. reflexivity. }
  assert (Hcomma : forall z, Py.all_chars (fun c => negb (Ascii.eqb c ",")) (Py.str_int z) = true).
  { intros z. apply (plain_no "," _); [|apply str_int_plain].
    intros c Hc. apply (plain_char c Hc). }
  assert (Hstrip : Py.strip ((Py.str_int x ++ "," ++ Py.str_int y) ++ CRLF)
                   = Py.str_int x ++ "," ++ Py.str_int y).
  { unfold Py.strip.
    assert (Hbody : Py.all_chars (fun c => negb (Py.isspace c))
                      (Py.str_int x ++ "," ++ Py.str_int y) = true).
    { rewrite all_chars_app. cbn [append Py.all_chars]. rewrite !Hsp. reflexivity. }
    assert (Hl : Py.lstrip_with Py.isspace ((Py.str_int x ++ "," ++ Py.str_int y) ++ CRLF)
                 = (Py.str_int x ++ "," ++ Py.str_int y) ++ CRLF).
    { destruct (Py.str_int x ++ "," ++ Py.str_int y) as [|c r] eqn:E.
      - destruct (Py.str_int x); discriminate E.
      - cbn [Py.all_chars] in Hbody. apply andb_true_iff in Hbody as [Hc _].
        apply negb_true_iff in Hc. cbn [append]. apply lstrip_with_keeps, Hc. }
    rewrite Hl. apply rstrip_with_app; [exact Hbody|reflexivity]. }
  rewrite Hstrip.
  change (Py.str_int x ++ "," ++ Py.str_int y)
    with (Py.str_int x ++ String "," (Py.str_int y)).
  rewrite (split_app_sep _ _ _ (Hcomma x)), (split_none _ _ (Hcomma y)).
  rewrite !int_str_int. reflexivity.
Qed.

Lemma written_app l1 l2 : written (l1 ++ l2) = (written l1 ++ written l2)%list.
Proof.
  induction l1 as [|c l1 IH]; [reflexivity|].
  destruct c; cbn; rewrite ?IH; reflexivity.
Qed.

Lemma written_rows (points : list (Z * Z)) :
  written (map (fun point => file_write (csv_row [Py.str_int (fst point);
                                                  Py.str_int (snd point)])) points)
  = map (fun point => csv_row [Py.str_int (fst point); Py.str_int (snd point)]) points.
Proof.
  induction points as [|p ps IH]; [reflexivity|].
  cbn [map written]. rewrite IH. reflexivity.
Qed.

(** X21.  The CSV export is lossless.  When the store is not empty, a file
    name is chosen and the file opens, [export_to_csv] returns [True] and
    writes the header row followed by one row per point in store order, and
    every data row, read back by stripping the line end, splitting on the
    comma and applying [int], gives the point it was written from. *)
Theorem export_to_csv_round_trip parent filename self :
  data_points self <> [] -> filename <> "" ->
  exists rows,
    fst (export_to_csv parent filename None self) = true
    /\ written (snd (export_to_csv parent filename None self))
       = ("Wavelength,Intensity" ++ CRLF) :: rows
    /\ map read_row rows = map Some (data_points self).
Proof.
  intros Hd Hf. unfold export_to_csv.
  destruct (data_points self) as [|p ps] eqn:E; [contradiction|].
  destruct filename as [|c f]; [contradiction|].
  exists (map (fun point => csv_row [Py.str_int (fst point); Py.str_int (snd point)])
              (p :: ps)).
  split; [reflexivity|]. split.
  - cbn [snd written]. f_equal.
    rewrite written_app, written_rows.
    destruct parent; cbn [written]; rewrite app_nil_r; reflexivity.
  - rewrite map_map. apply map_ext. intros [x y]. apply csv_row_read_back.
Qed.

Lemma export_to_csv_round_trip_witness :
  data_points (add_data_point 510 (-3) (add_data_point 500 800 new_processor)) <> []
  /\ "scan.csv" <> ""
  /\ exists rows,
       fst (export_to_csv true "scan.csv" None
              (add_data_point 510 (-3) (add_data_point 500 800 new_processor))) = true
       /\ written (snd (export_to_csv true "scan.csv" None
              (add_data_point 510 (-3) (add_data_point 500 800 new_processor))))
          = ("Wavelength,Intensity" ++ CRLF) :: rows
       /\ map read_row rows
          = map Some (data_points
              (add_data_point 510 (-3) (add_data_point 500 800 new_processor))).
Proof.
  split; [discriminate|]. split; [discriminate|].
  apply (export_to_csv_round_trip true "scan.csv"
           (add_data_point 510 (-3) (add_data_point 500 800 new_processor)));
    discriminate.
Defined.

(** X22.  [export_to_csv] writes nothing unless there is data, a file name
    and an openable file: with an empty store, a cancelled dialog or a
    failing [open] it returns [False] and no text is written; with an empty
    store the save dialog is not even shown. *)
Theorem export_to_csv_writes_nothing_on_failure parent filename open_error self :
  data_points self = [] \/ filename = "" \/ open_error <> None ->
  fst (export_to_csv parent filename open_error self) = false
  /\ written (snd (export_to_csv parent filename open_error self)) = []
  /\ (data_points self = [] ->
      forall caption filter,
        ~ In (getSaveFileName caption filter)
             (snd (export_to_csv parent filename open_error self))).
Proof.
  intros H. unfold export_to_csv.
  destruct (data_points self) as [|p ps].
  - destruct parent; cbn; repeat split; try reflexivity;
      intros _ caption filter Hin; intuition discriminate.
  - destruct H as [H|[H|H]]; [discriminate H| |].
    + subst filename. cbn. repeat split; try reflexivity. intros Hx; discriminate Hx.
    + destruct filename as [|c f].
      * cbn. repeat split; try reflexivity. intros Hx; discriminate Hx.
      * destruct open_error as [e|]; [|contradiction].
        destruct parent; cbn; repeat split; try reflexivity;
          intros Hx; discriminate Hx.
Qed.

Lemma export_to_csv_writes_nothing_on_failure_witness :
  (data_points new_processor = [] \/ "scan.csv" = "" \/ @None string <> None)
  /\ fst (export_to_csv true "scan.csv" None new_processor) = false
  /\ written (snd (export_to_csv true "scan.csv" None new_processor)) = []
  /\ (data_points new_processor = [] ->
      forall caption filter,
        ~ In (getSaveFileName caption filter)
             (snd (export_to_csv true "scan.csv" None new_processor))).
Proof.
  split; [left; reflexivity|].
  apply (export_to_csv_writes_nothing_on_failure true "scan.csv" None new_processor).
  left. reflexivity.
Defined.



